(** * Mass Follow Detector: the classifier and its command line

    A shallow embedding of [index.js].  JavaScript numbers are IEEE-754
    binary64 values, modelled by Rocq's primitive floats, so [NaN], the
    infinities, negative zero and the rounding of [/] are the ones the
    program meets.  JavaScript strings are [string]s.  The few services of
    the JavaScript runtime the program calls ([toFixed], [Math.floor],
    array indexing, [console.log], [process.exit]) are modelled in module
    [JS]; what depends on the host ([Number(text)], the locale of
    [toLocaleString], the draw of [Math.random], the clock) is an explicit
    input. *)

From Stdlib Require Import Floats ZArith NArith QArith Qround Bool String Ascii.
From Stdlib Require Import List DecimalString Lia.
Import ListNotations.

(** ** The JavaScript runtime, as far as the program uses it *)

Module JS.

Local Open Scope Q_scope.
Local Open Scope string_scope.

(** *** Decimal digits *)

Definition is_digit (c : ascii) : bool :=
  let n := nat_of_ascii c in (48 <=? n)%nat && (n <=? 57)%nat.

Fixpoint all_digits (s : string) : bool :=
  match s with
  | EmptyString => true
  | String c s' => is_digit c && all_digits s'
  end.

(** The decimal representation of a natural number, [0] printing as one
    digit. *)
Definition digits (n : N) : string := NilZero.string_of_uint (N.to_uint n).

Fixpoint zeros (k : nat) : string :=
  match k with
  | O => EmptyString
  | S k' => String "0" (zeros k')
  end.

Fixpoint take (k : nat) (s : string) : string :=
  match k, s with
  | S k', String c s' => String c (take k' s')
  | _, _ => EmptyString
  end.

Fixpoint drop (k : nat) (s : string) : string :=
  match k, s with
  | S k', String _ s' => drop k' s'
  | _, _ => s
  end.

(** The characters that follow the first decimal point of [s], if it has
    one. *)
Fixpoint after_point (s : string) : option string :=
  match s with
  | EmptyString => None
  | String c s' => if Ascii.eqb c "." then Some s' else after_point s'
  end.

(** [fraction_digits s = Some k]: [s] has a decimal point, followed by
    exactly [k] characters, all of them digits. *)
Definition fraction_digits (s : string) : option nat :=
  match after_point s with
  | Some b => if all_digits b then Some (String.length b) else None
  | None => None
  end.

(** *** The real value of a finite double *)

(** A finite non-zero double with mantissa [m] and exponent [e] has the
    magnitude [m * 2^e]. *)
Definition magnitude (m : positive) (e : Z) : Q :=
  inject_Z (Z.pos m) * Qpower 2 e.

Definition pow10 (p : Z) : Q := Qpower 10 p.

(** The double nearest to an integer (ties to even); exact below 2^53. *)
Definition of_Z (z : Z) : float :=
  SF2Prim (binary_normalize prec emax z 0 false).

(** *** Number::toString

    For a finite non-zero number the language takes integers [n], [k] and
    [s] with [k >= 1], [10^(k-1) <= s < 10^k], [s * 10^(n-k)] a decimal
    that reads back as the number, and [k] as small as possible; the string
    is laid out from the [k] digits of [s] and from [n]. *)

(** [rounds_to m e v]: the positive rational [v] rounds (to nearest, ties
    to even) to the double [m * 2^e].  The next double above is [2^e] away;
    so is the next one below, except at a power of two, where it is half
    as far. *)
Definition rounds_to (m : positive) (e : Z) (v : Q) : bool :=
  let x := magnitude m e in
  let above := Qpower 2 (e - 1) in
  let below :=
    if (Z.pos m =? 2 ^ 52)%Z && (-1074 <? e)%Z then Qpower 2 (e - 2)
    else Qpower 2 (e - 1) in
  if Z.even (Z.pos m)
  then Qle_bool (x - below) v && Qle_bool v (x + above)
  else negb (Qle_bool v (x - below)) && negb (Qle_bool (x + above) v).

(** A power of ten above the double: [m < 2^53] and
    [log10 2 < 0.30103], so [m * 2^e < 10^(decimal_bound e)]. *)
Definition decimal_bound (e : Z) : Z := ((e + 53) * 30103 / 100000 + 2)%Z.

(** The decimal [s * 10^p] with the largest [p] that rounds to [m * 2^e],
    searched from [10^p] downwards for [fuel] powers of ten; of the two
    multiples of [10^p] around the value, the closer one.  Every double has
    such a decimal of at most 17 digits, so the search from
    [decimal_bound e] ends before the fuel that [Number_toString] gives
    it. *)
Fixpoint shortest (fuel : nat) (p : Z) (m : positive) (e : Z) : Z * Z :=
  match fuel with
  | O => (0%Z, p)
  | S fuel' =>
      let x := magnitude m e in
      let s1 := Qfloor (x / pow10 p) in
      let s2 := (s1 + 1)%Z in
      let d1 := inject_Z s1 * pow10 p in
      let d2 := inject_Z s2 * pow10 p in
      let ok1 := (0 <? s1)%Z && rounds_to m e d1 in
      let ok2 := rounds_to m e d2 in
      if ok1 && ok2 then
        if Qle_bool (x - d1) (d2 - x) then (s1, p) else (s2, p)
      else if ok1 then (s1, p)
      else if ok2 then (s2, p)
      else shortest fuel' (p - 1)%Z m e
  end.

(** The layout of the digits [sd] of [s] (there are [k] of them) for the
    decimal exponent [n]. *)
Definition layout (sd : string) (n : Z) : string :=
  let k := Z.of_nat (String.length sd) in
  if (k <=? n)%Z && (n <=? 21)%Z then sd ++ zeros (Z.to_nat (n - k))
  else if (0 <? n)%Z && (n <=? 21)%Z then
    take (Z.to_nat n) sd ++ "." ++ drop (Z.to_nat n) sd
  else if (-6 <? n)%Z && (n <=? 0)%Z then "0." ++ zeros (Z.to_nat (- n)) ++ sd
  else
    let ex := (if (0 <=? n - 1)%Z then "e+" else "e-")
                ++ digits (Z.abs_N (n - 1)) in
    match sd with
    | String d EmptyString => String d ex
    | String d rest => String d ("." ++ rest ++ ex)
    | EmptyString => EmptyString
    end.

Definition Number_toString (x : float) : string :=
  match Prim2SF x with
  | S754_nan => "NaN"
  | S754_infinity s => if s then "-Infinity" else "Infinity"
  | S754_zero _ => "0"
  | S754_finite s m e =>
      let (sig, p) := shortest 40 (decimal_bound e) m e in
      let sd := digits (Z.to_N sig) in
      let n := (Z.of_nat (String.length sd) + p)%Z in
      (if s then "-" else "") ++ layout sd n
  end.

(** *** Number.prototype.toFixed *)

(** The digits of the integer [n] with a decimal point before the last [f]
    of them, padded with zeros on the left so that at least one digit
    stands before the point. *)
Definition fixed_repr (n : N) (f : nat) : string :=
  let m := digits n in
  let k := String.length m in
  let m := if (k <=? f)%nat then zeros (f + 1 - k) ++ m else m in
  let k := String.length m in
  match f with
  | O => m
  | _ => take (k - f) m ++ "." ++ drop (k - f) m
  end.

(** [x.toFixed(f)]: a number that is not finite prints as [ToString] does;
    otherwise the sign, and for a magnitude of 10^21 or more [ToString]
    again, else the integer [n] with [n / 10^f] nearest to the magnitude
    (the larger [n] on a tie) in fixed notation. *)
Definition toFixed (x : float) (f : nat) : string :=
  match Prim2SF x with
  | S754_nan | S754_infinity _ => Number_toString x
  | S754_zero _ => fixed_repr 0 f
  | S754_finite s m e =>
      let sign := if s then "-" else "" in
      if (1e21 <=? abs x)%float then sign ++ Number_toString (abs x)
      else
        let n := Qfloor (magnitude m e * pow10 (Z.of_nat f) + (1 # 2)) in
        sign ++ fixed_repr (Z.to_N n) f
  end.

(** *** Math.floor and array indexing *)

(** [Math.floor(x)]: NaN, the infinities and the zeros are returned as
    they are. *)
Definition Math_floor (x : float) : float :=
  match Prim2SF x with
  | S754_finite s m e =>
      let v := if s then - magnitude m e else magnitude m e in
      of_Z (Qfloor v)
  | _ => x
  end.

(** The array index a number denotes as a property key: a non-negative
    integer (negative zero is the key [0]); any other number names no
    element. *)
Definition array_index (i : float) : option N :=
  match Prim2SF i with
  | S754_zero _ => Some 0%N
  | S754_finite false m e =>
      let v := magnitude m e in
      if Qeq_bool (inject_Z (Qfloor v)) v then Some (Z.to_N (Qfloor v))
      else None
  | _ => None
  end.

(** [a[i]]; [None] is JavaScript's [undefined]. *)
Definition array_get {A : Type} (a : list A) (i : float) : option A :=
  match array_index i with
  | Some k =>
      if (k <? N.of_nat (List.length a))%N then nth_error a (N.to_nat k)
      else None
  | None => None
  end.

(** [a.length] as a number. *)
Definition array_length {A : Type} (a : list A) : float :=
  of_Z (Z.of_nat (List.length a)).

(** [String.prototype.repeat]. *)
Fixpoint repeat_string (s : string) (k : nat) : string :=
  match k with
  | O => EmptyString
  | S k' => s ++ repeat_string s k'
  end.

(** What a template literal or [console.log] shows for a value that may be
    [undefined]. *)
Definition show (v : option string) : string :=
  match v with
  | Some s => s
  | None => "undefined"
  end.

End JS.

(** ** The process: standard output and the exit status

    [console.log] appends a line to standard output; [process.exit] ends
    the run at once, so nothing after it is executed. *)

Module Proc.

Inductive outcome (A : Type) : Type :=
| Returned (a : A)
| Exited (code : Z).
Arguments Returned {A} a.
Arguments Exited {A} code.

(** A computation takes the lines printed so far and gives the lines
    printed after it, with its result or the status it exited with. *)
Definition t (A : Type) : Type := list string -> list string * outcome A.

Definition ret {A : Type} (a : A) : t A := fun out => (out, Returned a).

Definition bind {A B : Type} (c : t A) (k : A -> t B) : t B :=
  fun out =>
    match c out with
    | (out', Returned a) => k a out'
    | (out', Exited code) => (out', Exited code)
    end.

Definition console_log (line : string) : t unit :=
  fun out => (out ++ [line], Returned tt).

Definition process_exit {A : Type} (code : Z) : t A :=
  fun out => (out, Exited code).

(** Run a script from an empty standard output; a script that reaches its
    end exits with status 0. *)
Definition run (c : t unit) : list string * Z :=
  match c [] with
  | (out, Returned _) => (out, 0%Z)
  | (out, Exited code) => (out, code)
  end.

End Proc.

Notation "c1 ;; c2" := (Proc.bind c1 (fun _ => c2))
  (at level 61, right associativity).

(** ** The program *)

Local Open Scope string_scope.
Local Open Scope float_scope.

Record Thresholds : Type := {
  SUSPICIOUS : float;
  LIKELY : float;
  OBVIOUS : float;
  ABSURD : float;
  LEGENDARY : float
}.

Definition THRESHOLDS : Thresholds := {|
  SUSPICIOUS := 1000;
  LIKELY := 5000;
  OBVIOUS := 10000;
  ABSURD := 25000;
  LEGENDARY := 50000
|}.

Record RatioAnalysis : Type := {
  following : float;
  followers : float;
  ratio : string;
  verdict : string;
  description : string;
  recommendation : string;
  shame : bool;
  timestamp : string
}.

Record FollowBackAnalysis : Type := {
  fb_verdict : string;
  fb_description : string;
  fb_recommendation : string
}.

(** [followers > 0 ? following / followers : following].  The division is
    a parameter, so that a statement can range over what a division would
    return; the program passes the division of doubles. *)
Definition ratio_with (divide : float -> float -> float)
  (following followers : float) : float :=
  if 0 <? followers then divide following followers else following.

(** [analyzeRatio(following, followers)]; [now] is what
    [new Date().toISOString()] returns at the call. *)
Definition analyzeRatio (now : string) (following followers : float)
  : RatioAnalysis :=
  let ratio := ratio_with PrimFloat.div following followers in
  let '(verdict, description, recommendation) :=
    if following <? THRESHOLDS.(SUSPICIOUS) then
      ("NORMAL",
       "A regular human being. Refreshing.",
       "None needed. You are doing fine.")
    else if following <? THRESHOLDS.(LIKELY) then
      ("SUSPICIOUS",
       "Either very social or very desperate.",
       "Consider touching grass.")
    else if following <? THRESHOLDS.(OBVIOUS) then
      ("LIKELY_MASS_FOLLOWER",
       "You know what you did.",
       "The unfollow button exists. Use it.")
    else if following <? THRESHOLDS.(ABSURD) then
      ("MASS_FOLLOWER",
       "Quantity over quality, embodied.",
       "This is a cry for help, isn't it?")
    else if following <? THRESHOLDS.(LEGENDARY) then
      ("EGREGIOUS_MASS_FOLLOWER",
       "At what cost? FOR WHAT?",
       "Log off. Forever. Please.")
    else
      ("LEGENDARY_MASS_FOLLOWER",
       "You've achieved something. Not something good, but something.",
       "Frame this. Put it on your wall. Tell your grandchildren.") in
  {| following := following;
     followers := followers;
     ratio := JS.toFixed ratio 2;
     verdict := verdict;
     description := description;
     recommendation := recommendation;
     shame := THRESHOLDS.(SUSPICIOUS) <=? following;
     timestamp := now |}.

(** [analyzeFollowBack]: the two early returns inside the threshold test,
    then the default. *)
Definition analyzeFollowBack (theyFollowYou : bool) (theirFollowing : float)
  (youFollowedBack theyStillFollowYou : bool) : FollowBackAnalysis :=
  let genuine :=
    {| fb_verdict := "SEEMS_GENUINE";
       fb_description := "Possibly a real connection. Rare but beautiful.";
       fb_recommendation := "Cherish this. It's uncommon." |} in
  if THRESHOLDS.(SUSPICIOUS) <? theirFollowing then
    if theyFollowYou && negb youFollowedBack && negb theyStillFollowYou then
      {| fb_verdict := "CLASSIC_FOLLOW_UNFOLLOW";
         fb_description :=
           "They followed you, you didn't follow back, they unfollowed. Tale as old as time.";
         fb_recommendation :=
           "You dodged a bullet. Their feed is chaos anyway." |}
    else if theyFollowYou && youFollowedBack then
      {| fb_verdict := "THEY_GOT_YOU";
         fb_description := "You fell for it. It's okay, we all have.";
         fb_recommendation := "Consider unfollowing. They won't notice." |}
    else genuine
  else genuine.

(** The five templates of [generateMessage], around the count as the
    locale prints it. *)
Definition messages (count : string) : list string :=
  [ "Following " ++ count ++ " accounts? That's not networking, that's hoarding.";
    count ++ " follows. Do you even remember who they are?";
    "With " ++ count ++ " follows, your feed must be pure noise.";
    count ++ ". That's not a following list, that's a phone book.";
    "Imagine clicking follow " ++ count ++ " times. The dedication to mediocrity." ].

(** [generateMessage(following)]; [toLocaleString] is the host's
    [Number.prototype.toLocaleString] and [random] the value [Math.random()]
    returns at the call.  [None] is [undefined]. *)
Definition generateMessage (toLocaleString : float -> string) (random : float)
  (following : float) : option string :=
  if following <? THRESHOLDS.(SUSPICIOUS) then
    Some "You seem normal. This tool isn't for you."
  else
    let messages := messages (toLocaleString following) in
    JS.array_get messages (JS.Math_floor (random * JS.array_length messages)).

Definition WALL_OF_SHAME : list string := [].

Definition isOnWallOfShame (username : string) : bool := false.

(** *** The command line *)

(** What the host decides: the reading of an argument as a number
    ([Number(text)]), the locale's printing of a number, the draw of
    [Math.random()], and the clock as [new Date().toISOString()] reads
    it. *)
Record Host : Type := {
  Number : string -> float;
  toLocaleString : float -> string;
  Math_random : float;
  Date_toISOString : string
}.

Definition usage : Proc.t unit :=
  Proc.console_log "Usage: node index.js <following> <followers>" ;;
  Proc.console_log "Example: node index.js 47832 523" ;;
  Proc.console_log "" ;;
  Proc.console_log "Or just accept that if you're running this, you already know.".

(** The report, from the first blank line to the closing rule. *)
Definition report (h : Host) (following followers : float)
  (result : RatioAnalysis) : Proc.t unit :=
  Proc.console_log "" ;;
  Proc.console_log (JS.repeat_string "=" 50) ;;
  Proc.console_log "MASS FOLLOW ANALYSIS REPORT" ;;
  Proc.console_log (JS.repeat_string "=" 50) ;;
  Proc.console_log "" ;;
  Proc.console_log ("Following: " ++ h.(toLocaleString) following) ;;
  Proc.console_log ("Followers: " ++ h.(toLocaleString) followers) ;;
  Proc.console_log ("Ratio: " ++ result.(ratio)) ;;
  Proc.console_log "" ;;
  Proc.console_log ("Verdict: " ++ result.(verdict)) ;;
  Proc.console_log result.(description) ;;
  Proc.console_log "" ;;
  Proc.console_log ("Recommendation: " ++ result.(recommendation)) ;;
  Proc.console_log "" ;;
  Proc.console_log (JS.repeat_string "=" 50).

(** The script run as the main module; [argv] is [process.argv], whose
    first two entries are the interpreter and the script.  An argument
    that is missing after the guard would be [undefined]; the guard has
    exited by then, and the model reads it as NaN. *)
Definition main (h : Host) (argv : list string) : Proc.t unit :=
  let args := skipn 2 argv in
  (if (List.length args <? 2)%nat
   then usage ;; Proc.process_exit 1
   else Proc.ret tt) ;;
  let numbers := map h.(Number) args in
  let following := nth 0 numbers nan in
  let followers := nth 1 numbers nan in
  let result := analyzeRatio h.(Date_toISOString) following followers in
  report h following followers result ;;
  if result.(shame) then
    Proc.console_log "" ;;
    Proc.console_log
      (JS.show (generateMessage h.(toLocaleString) h.(Math_random) following))
  else Proc.ret tt.

(** *** Intervals of counts *)

(** [x] lies in the half-open interval from [lo] to [hi]. *)
Definition within (lo hi x : float) : bool := (lo <=? x) && (x <? hi).

(** *** The follow-back verdict as the specification words it *)

(** Rule 1, else rule 2, else the default; each rule names the threshold
    test itself. *)
Definition followBack_verdict_spec (theyFollowYou : bool)
  (theirFollowing : float) (youFollowedBack theyStillFollowYou : bool)
  : string :=
  if (1000 <? theirFollowing) && theyFollowYou && negb youFollowedBack
     && negb theyStillFollowYou
  then "CLASSIC_FOLLOW_UNFOLLOW"
  else if (1000 <? theirFollowing) && theyFollowYou && youFollowedBack
  then "THEY_GOT_YOU"
  else "SEEMS_GENUINE".

(** ** A host for the worked examples

    A stand-in for Node.js in the en-US locale, used where a statement is
    run on concrete arguments. *)

Module Node.

(** The digits of an integer in groups of three. *)
Fixpoint group3 (s : string) : string :=
  match s with
  | EmptyString => EmptyString
  | String c s' =>
      let k := String.length s' in
      String c (if (0 <? k)%nat && (k mod 3 =? 0)%nat
                then "," ++ group3 s' else group3 s')
  end.

(** A string without the zeros at its end. *)
Fixpoint strip_zeros (s : string) : string :=
  match s with
  | EmptyString => EmptyString
  | String c s' =>
      match strip_zeros s' with
      | EmptyString => if Ascii.eqb c "0" then EmptyString else String c ""
      | rest => String c rest
      end
  end.

(** The sign for infinity, in UTF-8. *)
Definition infinity_sign : string :=
  String (ascii_of_nat 226) (String (ascii_of_nat 136)
    (String (ascii_of_nat 158) EmptyString)).

(** The en-US printing of a number: grouped integer digits and at most
    three fraction digits, rounded half away from zero.  It prints the
    exact value of the double, as the locale does for the counts this
    program is about. *)
Definition toLocaleString_en_US (x : float) : string :=
  match Prim2SF x with
  | S754_nan => "NaN"
  | S754_infinity s => (if s then "-" else "") ++ infinity_sign
  | S754_zero s => if s then "-0" else "0"
  | S754_finite s m e =>
      let n := Qfloor (JS.magnitude m e * inject_Z 1000 + (1 # 2))%Q in
      let whole := group3 (JS.digits (Z.to_N (n / 1000))) in
      let thousandths := JS.digits (Z.to_N (n mod 1000)) in
      let padded :=
        JS.zeros (3 - String.length thousandths) ++ thousandths in
      let fraction := strip_zeros padded in
      (if s then "-" else "") ++ whole
        ++ match fraction with
           | EmptyString => ""
           | _ => "." ++ fraction
           end
  end.

(** [Number(text)] on the texts the examples pass: an unsigned decimal
    integer reads as the nearest double and the empty text as 0.  The
    language reads signs, fractions, exponents, other radices and
    surrounding blanks as well; this stand-in reads every other text as
    NaN, which is right for text that is not numeric. *)
Definition Number_of_text (s : string) : float :=
  match s with
  | EmptyString => 0
  | _ =>
      match NilZero.uint_of_string s with
      | Some u => JS.of_Z (Z.of_uint u)
      | None => nan
      end
  end.

Definition host : Host := {|
  Number := Number_of_text;
  toLocaleString := toLocaleString_en_US;
  Math_random := 0.5;
  Date_toISOString := "2024-01-01T00:00:00.000Z"
|}.

End Node.

(** *** The order of the verdicts *)

(** The place of a verdict of [analyzeRatio] in the order in which the type
    [Verdict] of [index.d.ts] lists them, which is the order of the
    branches of [analyzeRatio]; [None] for any other string. *)
Definition verdict_rank (v : string) : option nat :=
  if String.eqb v "NORMAL" then Some 0%nat
  else if String.eqb v "SUSPICIOUS" then Some 1%nat
  else if String.eqb v "LIKELY_MASS_FOLLOWER" then Some 2%nat
  else if String.eqb v "MASS_FOLLOWER" then Some 3%nat
  else if String.eqb v "EGREGIOUS_MASS_FOLLOWER" then Some 4%nat
  else if String.eqb v "LEGENDARY_MASS_FOLLOWER" then Some 5%nat
  else None.

(** Follows the chain of threshold tests on the count [f]: one goal for
    each of its six branches. *)
Ltac chain_cases f :=
  destruct (f <? 1000);
  [ | destruct (f <? 5000);
      [ | destruct (f <? 10000);
          [ | destruct (f <? 25000);
              [ | destruct (f <? 50000) ] ] ] ].

(** Splits a hypothesis [within lo hi x = true] into its two bounds. *)
Ltac split_within H :=
  unfold within in H; apply andb_prop in H; destruct H as [?Hlo ?Hhi].

(** * Properties *)

(** ** The order of doubles

    The comparisons of primitive floats are specified by [SFcompare] on
    their decoding.  Decoded, the order is lexicographic on sign, exponent
    and mantissa, and NaN compares with nothing. *)

Lemma SFcompare_antisym (x y : spec_float) :
  SFcompare y x = option_map CompOpp (SFcompare x y).
Proof.
  destruct x as [sx | sx | | sx mx ex], y as [sy | sy | | sy my ey];
    try destruct sx; try destruct sy; try reflexivity.
  all: cbn [SFcompare option_map]; f_equal.
  all: change (PosDef.Pos.compare_cont Eq my mx) with (Pos.compare my mx).
  all: change (PosDef.Pos.compare_cont Eq mx my) with (Pos.compare mx my).
  all: rewrite (Z.compare_antisym ex ey), (Pos.compare_antisym mx my).
  all: destruct (ex ?= ey)%Z; cbn; try reflexivity.
  all: destruct (mx ?= my)%positive; reflexivity.
Qed.

Lemma SFcompare_refl (x : spec_float) :
  x <> S754_nan -> SFcompare x x = Some Eq.
Proof.
  destruct x as [s | s | | s m e]; try destruct s; cbn [SFcompare];
    try reflexivity; try congruence; intros _.
  all: change (PosDef.Pos.compare_cont Eq m m) with (Pos.compare m m).
  all: rewrite Z.compare_refl, Pos.compare_refl; reflexivity.
Qed.

Lemma SFleb_trans (x y z : spec_float) :
  SFleb x y = true -> SFleb y z = true -> SFleb x z = true.
Proof.
  unfold SFleb.
  destruct x as [sx | sx | | sx mx ex], y as [sy | sy | | sy my ey],
    z as [sz | sz | | sz mz ez];
    try destruct sx; try destruct sy; try destruct sz;
    cbn [SFcompare]; try discriminate; try reflexivity.
  all: change (PosDef.Pos.compare_cont Eq) with Pos.compare.
  all: destruct (Z.compare_spec ex ey); try discriminate;
       destruct (Z.compare_spec ey ez); try discriminate;
       destruct (Z.compare_spec ex ez); try lia; try reflexivity.
  all: subst.
  all: destruct (Pos.compare_spec mx my); try discriminate;
       destruct (Pos.compare_spec my mz); try discriminate;
       destruct (Pos.compare_spec mx mz); cbn; try lia; try reflexivity.
Qed.

Lemma is_nan_true (x : float) : is_nan x = true <-> Prim2SF x = S754_nan.
Proof.
  unfold is_nan. rewrite FloatAxioms.eqb_spec. unfold SFeqb. split.
  - destruct (Prim2SF x) eqn:E; try reflexivity;
      rewrite SFcompare_refl by discriminate; discriminate.
  - intros ->. reflexivity.
Qed.

Lemma is_nan_false (x : float) : is_nan x = false <-> Prim2SF x <> S754_nan.
Proof.
  rewrite <- is_nan_true. destruct (is_nan x); split; congruence.
Qed.

(** Every comparison with NaN is false. *)
Lemma ltb_nan_l (x y : float) : is_nan x = true -> (x <? y)%float = false.
Proof. rewrite is_nan_true, FloatAxioms.ltb_spec. intros ->. reflexivity. Qed.

Lemma leb_nan_r (x y : float) : is_nan y = true -> (x <=? y)%float = false.
Proof.
  rewrite is_nan_true, FloatAxioms.leb_spec. intros ->.
  destruct (Prim2SF x) as [s | s | | s m e]; try destruct s; reflexivity.
Qed.

Lemma ltb_nan_r (x y : float) : is_nan y = true -> (x <? y)%float = false.
Proof.
  rewrite is_nan_true, FloatAxioms.ltb_spec. intros ->.
  destruct (Prim2SF x) as [s | s | | s m e]; try destruct s; reflexivity.
Qed.

(** [x <= y] excludes [y < x]. *)
Lemma leb_ltb_false (x y : float) :
  (x <=? y)%float = true -> (y <? x)%float = false.
Proof.
  rewrite FloatAxioms.leb_spec, FloatAxioms.ltb_spec. unfold SFleb, SFltb.
  rewrite (SFcompare_antisym (Prim2SF x) (Prim2SF y)).
  destruct (SFcompare (Prim2SF x) (Prim2SF y)) as [[ | | ] | ];
    cbn; congruence.
Qed.

(** [x < y] excludes [y <= x]. *)
Lemma ltb_leb_false (x y : float) :
  (x <? y)%float = true -> (y <=? x)%float = false.
Proof.
  rewrite FloatAxioms.leb_spec, FloatAxioms.ltb_spec. unfold SFleb, SFltb.
  rewrite (SFcompare_antisym (Prim2SF x) (Prim2SF y)).
  destruct (SFcompare (Prim2SF x) (Prim2SF y)) as [[ | | ] | ];
    cbn; congruence.
Qed.

(** [x = y] (as numbers) excludes [y < x]. *)
Lemma eqb_ltb_false (x y : float) :
  (x =? y)%float = true -> (y <? x)%float = false.
Proof.
  rewrite FloatAxioms.eqb_spec, FloatAxioms.ltb_spec. unfold SFeqb, SFltb.
  rewrite (SFcompare_antisym (Prim2SF x) (Prim2SF y)).
  destruct (SFcompare (Prim2SF x) (Prim2SF y)) as [[ | | ] | ];
    cbn; congruence.
Qed.

(** Two numbers, neither of them NaN, are comparable: [x < y] is the
    negation of [y <= x]. *)
Lemma ltb_negb_leb (x y : float) :
  is_nan x = false -> is_nan y = false ->
  (x <? y)%float = negb (y <=? x)%float.
Proof.
  rewrite !is_nan_false, FloatAxioms.leb_spec, FloatAxioms.ltb_spec. unfold SFleb, SFltb.
  rewrite (SFcompare_antisym (Prim2SF x) (Prim2SF y)).
  intros Hx Hy.
  destruct (Prim2SF x) as [sx | sx | | sx mx ex],
    (Prim2SF y) as [sy | sy | | sy my ey];
    try congruence; try destruct sx; try destruct sy; try reflexivity.
  all: cbn [SFcompare option_map].
  all: destruct (ex ?= ey)%Z; try reflexivity.
  all: destruct (PosDef.Pos.compare_cont Eq mx my); reflexivity.
Qed.

Lemma leb_trans (x y z : float) :
  (x <=? y)%float = true -> (y <=? z)%float = true -> (x <=? z)%float = true.
Proof. rewrite !FloatAxioms.leb_spec. apply SFleb_trans. Qed.


(** ** The ratio classifier *)

Section AnalyzeRatio.

Variable now : string.
Variables following followers : float.

(** The verdict is decided by the chain of comparisons alone. *)
Lemma verdict_chain :
  verdict (analyzeRatio now following followers) =
  if following <? 1000 then "NORMAL"
  else if following <? 5000 then "SUSPICIOUS"
  else if following <? 10000 then "LIKELY_MASS_FOLLOWER"
  else if following <? 25000 then "MASS_FOLLOWER"
  else if following <? 50000 then "EGREGIOUS_MASS_FOLLOWER"
  else "LEGENDARY_MASS_FOLLOWER".
Proof.
  unfold analyzeRatio. cbn [SUSPICIOUS LIKELY OBVIOUS ABSURD LEGENDARY THRESHOLDS].
  destruct (following <? 1000); [reflexivity | ].
  destruct (following <? 5000); [reflexivity | ].
  destruct (following <? 10000); [reflexivity | ].
  destruct (following <? 25000); [reflexivity | ].
  destruct (following <? 50000); reflexivity.
Qed.

Lemma shame_test :
  shame (analyzeRatio now following followers) = (1000 <=? following).
Proof.
  unfold analyzeRatio.
  destruct (following <? THRESHOLDS.(SUSPICIOUS)); [reflexivity | ].
  destruct (following <? THRESHOLDS.(LIKELY)); [reflexivity | ].
  destruct (following <? THRESHOLDS.(OBVIOUS)); [reflexivity | ].
  destruct (following <? THRESHOLDS.(ABSURD)); [reflexivity | ].
  destruct (following <? THRESHOLDS.(LEGENDARY)); reflexivity.
Qed.

Lemma ratio_field :
  ratio (analyzeRatio now following followers) =
  JS.toFixed (ratio_with PrimFloat.div following followers) 2.
Proof.
  unfold analyzeRatio.
  destruct (following <? THRESHOLDS.(SUSPICIOUS)); [reflexivity | ].
  destruct (following <? THRESHOLDS.(LIKELY)); [reflexivity | ].
  destruct (following <? THRESHOLDS.(OBVIOUS)); [reflexivity | ].
  destruct (following <? THRESHOLDS.(ABSURD)); [reflexivity | ].
  destruct (following <? THRESHOLDS.(LEGENDARY)); reflexivity.
Qed.

(** A count at or above a threshold [t] is not below any threshold up to
    [t]. *)
Lemma not_below (lo t : float) :
  (lo <=? t) = true -> (t <=? following) = true -> (following <? lo) = false.
Proof.
  intros Hlo Ht. apply leb_ltb_false. exact (leb_trans lo t following Hlo Ht).
Qed.

End AnalyzeRatio.

(** C1.  The verdict follows the half-open intervals of the following
    count: from 0 up to 1000 NORMAL, from 1000 up to 5000 SUSPICIOUS, from
    5000 up to 10000 LIKELY_MASS_FOLLOWER, from 10000 up to 25000
    MASS_FOLLOWER, from 25000 up to 50000 EGREGIOUS_MASS_FOLLOWER, and
    from 50000 on LEGENDARY_MASS_FOLLOWER; each of the boundaries 1000,
    5000, 10000, 25000 and 50000 takes the higher verdict. *)
Theorem analyzeRatio_verdict_intervals (now : string) (following followers : float) :
  (within 0 1000 following = true ->
     verdict (analyzeRatio now following followers) = "NORMAL") /\
  (within 1000 5000 following = true ->
     verdict (analyzeRatio now following followers) = "SUSPICIOUS") /\
  (within 5000 10000 following = true ->
     verdict (analyzeRatio now following followers) = "LIKELY_MASS_FOLLOWER") /\
  (within 10000 25000 following = true ->
     verdict (analyzeRatio now following followers) = "MASS_FOLLOWER") /\
  (within 25000 50000 following = true ->
     verdict (analyzeRatio now following followers) = "EGREGIOUS_MASS_FOLLOWER") /\
  ((50000 <=? following) = true ->
     verdict (analyzeRatio now following followers) = "LEGENDARY_MASS_FOLLOWER") /\
  verdict (analyzeRatio now 1000 followers) = "SUSPICIOUS" /\
  verdict (analyzeRatio now 5000 followers) = "LIKELY_MASS_FOLLOWER" /\
  verdict (analyzeRatio now 10000 followers) = "MASS_FOLLOWER" /\
  verdict (analyzeRatio now 25000 followers) = "EGREGIOUS_MASS_FOLLOWER" /\
  verdict (analyzeRatio now 50000 followers) = "LEGENDARY_MASS_FOLLOWER".
Proof.
  rewrite !verdict_chain.
  split; [ | split; [ | split; [ | split; [ | split; [ | split ] ] ] ] ];
    [ intros H; split_within H .. | intros H | repeat split ].
  - rewrite Hhi. reflexivity.
  - rewrite (not_below following 1000 1000), Hhi by (reflexivity || assumption).
    reflexivity.
  - rewrite (not_below following 1000 5000), (not_below following 5000 5000), Hhi
      by (reflexivity || assumption).
    reflexivity.
  - rewrite (not_below following 1000 10000), (not_below following 5000 10000),
      (not_below following 10000 10000), Hhi by (reflexivity || assumption).
    reflexivity.
  - rewrite (not_below following 1000 25000), (not_below following 5000 25000),
      (not_below following 10000 25000), (not_below following 25000 25000), Hhi
      by (reflexivity || assumption).
    reflexivity.
  - rewrite (not_below following 1000 50000), (not_below following 5000 50000),
      (not_below following 10000 50000), (not_below following 25000 50000),
      (not_below following 50000 50000) by (reflexivity || assumption).
    reflexivity.
Qed.

(** The intervals of C1 at the counts 0, 999, 4999, 9999, 24999, 49999 and
    at a count far above the last threshold. *)
Lemma analyzeRatio_verdict_intervals_witness :
  verdict (analyzeRatio "t" 0 10) = "NORMAL" /\
  verdict (analyzeRatio "t" 999 10) = "NORMAL" /\
  verdict (analyzeRatio "t" 4999 10) = "SUSPICIOUS" /\
  verdict (analyzeRatio "t" 9999 10) = "LIKELY_MASS_FOLLOWER" /\
  verdict (analyzeRatio "t" 24999 10) = "MASS_FOLLOWER" /\
  verdict (analyzeRatio "t" 49999 10) = "EGREGIOUS_MASS_FOLLOWER" /\
  verdict (analyzeRatio "t" 1e9 10) = "LEGENDARY_MASS_FOLLOWER".
Proof.
  split; [ | split; [ | split; [ | split; [ | split; [ | split ] ] ] ] ].
  - exact (proj1 (analyzeRatio_verdict_intervals "t" 0 10) eq_refl).
  - exact (proj1 (analyzeRatio_verdict_intervals "t" 999 10) eq_refl).
  - exact (proj1 (proj2 (analyzeRatio_verdict_intervals "t" 4999 10)) eq_refl).
  - exact (proj1 (proj2 (proj2
             (analyzeRatio_verdict_intervals "t" 9999 10))) eq_refl).
  - exact (proj1 (proj2 (proj2 (proj2
             (analyzeRatio_verdict_intervals "t" 24999 10)))) eq_refl).
  - exact (proj1 (proj2 (proj2 (proj2 (proj2
             (analyzeRatio_verdict_intervals "t" 49999 10))))) eq_refl).
  - exact (proj1 (proj2 (proj2 (proj2 (proj2 (proj2
             (analyzeRatio_verdict_intervals "t" 1e9 10)))))) eq_refl).
Defined.

(** C4.  The record's [shame] is the test [following >= 1000]: it is true
    exactly when the count is at least 1000, and it is false, with the
    verdict NORMAL, for every count below 1000. *)
Theorem analyzeRatio_shame (now : string) (following followers : float) :
  shame (analyzeRatio now following followers) = (1000 <=? following) /\
  (shame (analyzeRatio now following followers) = true <->
     (1000 <=? following) = true) /\
  ((following <? 1000) = true ->
     verdict (analyzeRatio now following followers) = "NORMAL" /\
     shame (analyzeRatio now following followers) = false).
Proof.
  rewrite shame_test, verdict_chain.
  split; [reflexivity | ]. split; [reflexivity | ].
  intros H. rewrite H. split; [reflexivity | ].
  exact (ltb_leb_false following 1000 H).
Qed.

(** C4 at the counts 999 and 1000. *)
Lemma analyzeRatio_shame_witness :
  (verdict (analyzeRatio "t" 999 10) = "NORMAL" /\
   shame (analyzeRatio "t" 999 10) = false) /\
  shame (analyzeRatio "t" 1000 10) = true.
Proof.
  split.
  - exact (proj2 (proj2 (analyzeRatio_shame "t" 999 10)) eq_refl).
  - exact (proj2 (proj1 (proj2 (analyzeRatio_shame "t" 1000 10))) eq_refl).
Defined.

(** C5.  When [following] is NaN each of the five threshold comparisons is
    false, and the verdict is the one of the final branch,
    LEGENDARY_MASS_FOLLOWER. *)
Theorem analyzeRatio_nan (now : string) (following followers : float) :
  is_nan following = true ->
  (following <? THRESHOLDS.(SUSPICIOUS)) = false /\
  (following <? THRESHOLDS.(LIKELY)) = false /\
  (following <? THRESHOLDS.(OBVIOUS)) = false /\
  (following <? THRESHOLDS.(ABSURD)) = false /\
  (following <? THRESHOLDS.(LEGENDARY)) = false /\
  verdict (analyzeRatio now following followers) = "LEGENDARY_MASS_FOLLOWER".
Proof.
  intros H. rewrite verdict_chain, !(ltb_nan_l following) by exact H.
  repeat split.
Qed.

(** C5 at the NaN that [Number] returns for text that is not numeric. *)
Lemma analyzeRatio_nan_witness :
  verdict (analyzeRatio "t" (Node.Number_of_text "many") 10)
  = "LEGENDARY_MASS_FOLLOWER".
Proof.
  exact (proj2 (proj2 (proj2 (proj2 (proj2
    (analyzeRatio_nan "t" (Node.Number_of_text "many") 10 eq_refl)))))).
Defined.

(** ** The follow-back classifier *)

(** C2.  [analyzeFollowBack] gives the verdict of the reference
    definition on every input; in particular the verdict is SEEMS_GENUINE
    whenever [theirFollowing <= 1000]. *)
Theorem analyzeFollowBack_spec (theyFollowYou : bool) (theirFollowing : float)
  (youFollowedBack theyStillFollowYou : bool) :
  fb_verdict (analyzeFollowBack theyFollowYou theirFollowing youFollowedBack
                theyStillFollowYou)
  = followBack_verdict_spec theyFollowYou theirFollowing youFollowedBack
      theyStillFollowYou
  /\ ((theirFollowing <=? 1000) = true ->
      fb_verdict (analyzeFollowBack theyFollowYou theirFollowing
                    youFollowedBack theyStillFollowYou) = "SEEMS_GENUINE").
Proof.
  unfold analyzeFollowBack, followBack_verdict_spec.
  cbn [SUSPICIOUS THRESHOLDS]. split.
  - destruct (1000 <? theirFollowing), theyFollowYou, youFollowedBack,
      theyStillFollowYou; reflexivity.
  - intros H. rewrite (leb_ltb_false theirFollowing 1000 H). reflexivity.
Qed.

(** C2 on the inputs the specification lists. *)
Lemma analyzeFollowBack_spec_witness :
  fb_verdict (analyzeFollowBack true 500 false false) = "SEEMS_GENUINE" /\
  fb_verdict (analyzeFollowBack true 2000 false false)
    = followBack_verdict_spec true 2000 false false.
Proof.
  split.
  - exact (proj2 (analyzeFollowBack_spec true 500 false false) eq_refl).
  - exact (proj1 (analyzeFollowBack_spec true 2000 false false)).
Defined.

Example analyzeFollowBack_examples :
  fb_verdict (analyzeFollowBack true 2000 false false) = "CLASSIC_FOLLOW_UNFOLLOW" /\
  fb_verdict (analyzeFollowBack true 2000 true true) = "THEY_GOT_YOU" /\
  fb_verdict (analyzeFollowBack true 2000 true false) = "THEY_GOT_YOU" /\
  fb_verdict (analyzeFollowBack true 1000 true true) = "SEEMS_GENUINE" /\
  fb_verdict (analyzeFollowBack false 9999 false false) = "SEEMS_GENUINE" /\
  fb_verdict (analyzeFollowBack true 2000 false true) = "SEEMS_GENUINE".
Proof. repeat split. Qed.

(** ** The wall of shame *)

(** C9.  [isOnWallOfShame] is false on every username, the empty one
    included, and the list is empty. *)
Theorem isOnWallOfShame_false :
  (forall username : string, isOnWallOfShame username = false) /\
  isOnWallOfShame "" = false /\
  WALL_OF_SHAME = [].
Proof. repeat split. Qed.

(** ** The digits of [toFixed] *)

Section Digits.

Local Open Scope nat_scope.

Lemma all_digits_app (a b : string) :
  JS.all_digits (a ++ b) = JS.all_digits a && JS.all_digits b.
Proof.
  induction a as [ | c a IH]; [reflexivity | ].
  cbn [append JS.all_digits]. rewrite IH. apply andb_assoc.
Qed.

Lemma all_digits_zeros (k : nat) : JS.all_digits (JS.zeros k) = true.
Proof. induction k as [ | k IH]; [reflexivity | exact IH]. Qed.

Lemma all_digits_uint (d : Decimal.uint) :
  JS.all_digits (NilEmpty.string_of_uint d) = true.
Proof. induction d; cbn; auto. Qed.

Lemma all_digits_digits (n : N) : JS.all_digits (JS.digits n) = true.
Proof.
  unfold JS.digits, NilZero.string_of_uint.
  destruct (N.to_uint n) eqn:E; try reflexivity;
    rewrite <- E; apply all_digits_uint.
Qed.

Lemma all_digits_take (k : nat) (s : string) :
  JS.all_digits s = true -> JS.all_digits (JS.take k s) = true.
Proof.
  revert s. induction k as [ | k IH]; intros [ | c s]; cbn; auto.
  intros H. apply andb_prop in H. destruct H as [Hc Hs].
  rewrite Hc. cbn. auto.
Qed.

Lemma all_digits_drop (k : nat) (s : string) :
  JS.all_digits s = true -> JS.all_digits (JS.drop k s) = true.
Proof.
  revert s. induction k as [ | k IH]; intros [ | c s]; cbn; auto.
  intros H. apply andb_prop in H. destruct H as [_ Hs]. auto.
Qed.

Lemma length_drop (k : nat) (s : string) :
  String.length (JS.drop k s) = String.length s - k.
Proof.
  revert s. induction k as [ | k IH]; intros [ | c s]; cbn; auto.
Qed.

Lemma length_app (a b : string) :
  String.length (a ++ b) = String.length a + String.length b.
Proof. induction a as [ | c a IH]; cbn; auto. Qed.

Lemma length_zeros (k : nat) : String.length (JS.zeros k) = k.
Proof. induction k as [ | k IH]; cbn; auto. Qed.

(** The point that follows a run of digits is the first one. *)
Lemma after_point_digits (a b : string) :
  JS.all_digits a = true -> JS.after_point (a ++ String "." b) = Some b.
Proof.
  induction a as [ | c a IH]; [reflexivity | ].
  cbn [append JS.all_digits JS.after_point]. intros H.
  apply andb_prop in H. destruct H as [Hc Ha].
  destruct (Ascii.eqb_spec c "."); [ subst c; discriminate | auto ].
Qed.

Lemma fraction_digits_minus (s : string) :
  JS.fraction_digits (String "-" s) = JS.fraction_digits s.
Proof. reflexivity. Qed.

(** Fixed notation with [f > 0] fraction digits has exactly [f] digits
    after its point. *)
Lemma fixed_repr_fraction (n : N) (f : nat) :
  0 < f -> JS.fraction_digits (JS.fixed_repr n f) = Some f.
Proof.
  intros Hf. unfold JS.fixed_repr.
  set (m := if String.length (JS.digits n) <=? f
            then (JS.zeros (f + 1 - String.length (JS.digits n))
                    ++ JS.digits n)%string
            else JS.digits n).
  assert (Hd : JS.all_digits m = true).
  { subst m. destruct (String.length (JS.digits n) <=? f).
    - rewrite all_digits_app, all_digits_zeros, all_digits_digits.
      reflexivity.
    - apply all_digits_digits. }
  assert (Hl : f < String.length m).
  { subst m. destruct (Nat.leb_spec (String.length (JS.digits n)) f).
    - rewrite length_app, length_zeros. lia.
    - lia. }
  destruct f as [ | f']; [lia | ].
  unfold JS.fraction_digits.
  change (JS.take (String.length m - S f') m ++ "." ++ JS.drop (String.length m - S f') m)%string
    with (JS.take (String.length m - S f') m
            ++ String "." (JS.drop (String.length m - S f') m))%string.
  rewrite after_point_digits by (apply all_digits_take; exact Hd).
  rewrite all_digits_drop by exact Hd.
  rewrite length_drop. f_equal. lia.
Qed.

End Digits.

(** [toFixed] on a finite number of magnitude below 10^21 is in fixed
    notation. *)
Lemma toFixed_fraction (x : float) (f : nat) :
  (0 < f)%nat -> (abs x <? 1e21) = true ->
  JS.fraction_digits (JS.toFixed x f) = Some f.
Proof.
  intros Hf Hx. unfold JS.toFixed.
  pose proof (ltb_leb_false (abs x) 1e21 Hx) as Hge.
  rewrite FloatAxioms.ltb_spec, abs_spec in Hx.
  destruct (Prim2SF x) as [s | s | | s m e].
  - apply fixed_repr_fraction. exact Hf.
  - discriminate Hx.
  - discriminate Hx.
  - rewrite Hge. destruct s.
    + cbn [append]. rewrite fraction_digits_minus.
      apply fixed_repr_fraction. exact Hf.
    + apply fixed_repr_fraction. exact Hf.
Qed.

(** C7, as the program has it.  For every non-negative pair whose ratio has
    a magnitude below 10^21, the ratio field has exactly two digits after
    its decimal point. *)
Theorem ratio_field_two_fraction_digits (now : string) (following followers : float) :
  (0 <=? following) = true ->
  (0 <=? followers) = true ->
  (abs (ratio_with PrimFloat.div following followers) <? 1e21) = true ->
  JS.fraction_digits (ratio (analyzeRatio now following followers)) = Some 2%nat.
Proof.
  intros _ _ H. rewrite ratio_field. apply toFixed_fraction; [ lia | exact H ].
Qed.

(** C7 as amended, at 47832 following and 523 followers. *)
Lemma ratio_field_two_fraction_digits_witness :
  JS.fraction_digits (ratio (analyzeRatio "t" 47832 523)) = Some 2%nat.
Proof.
  exact (ratio_field_two_fraction_digits "t" 47832 523 eq_refl eq_refl eq_refl).
Defined.

(** C7 as the specification words it fails: 10^21 following and one
    follower are a non-negative pair, and the ratio field is then in
    exponent notation, with no decimal point at all. *)
Lemma ratio_field_two_fraction_digits_counterexample :
  ratio (analyzeRatio "t" 1e21 1) = "1e+21" /\
  ~ (forall (now : string) (following followers : float),
       (0 <=? following) = true ->
       (0 <=? followers) = true ->
       JS.fraction_digits (ratio (analyzeRatio now following followers))
       = Some 2%nat).
Proof.
  split.
  - vm_compute. reflexivity.
  - intros H. specialize (H "t" 1e21 1 eq_refl eq_refl).
    vm_compute in H. discriminate H.
Qed.

(** ** The ratio and its division *)

(** C3, as the program has it.  When [followers] is 0 the ratio is
    [following] itself whatever a division would return, so none takes
    place; when [followers > 0] the ratio is [following / followers]; and
    the ratio does not depend on what a division by zero would give, since
    no division by zero is reached.  The field is the ratio formatted by
    [toFixed(2)], which has exactly two digits after its decimal point
    when the magnitude of the ratio is below 10^21. *)
Theorem ratio_without_zero_division (now : string) (following followers : float) :
  ((followers =? 0) = true ->
     (forall divide, ratio_with divide following followers = following) /\
     ratio (analyzeRatio now following followers) = JS.toFixed following 2 /\
     ((abs following <? 1e21) = true ->
        JS.fraction_digits (ratio (analyzeRatio now following followers))
        = Some 2%nat)) /\
  ((0 <? followers) = true ->
     ratio_with PrimFloat.div following followers = following / followers /\
     ratio (analyzeRatio now following followers) =
       JS.toFixed (following / followers) 2 /\
     ((abs (following / followers) <? 1e21) = true ->
        JS.fraction_digits (ratio (analyzeRatio now following followers))
        = Some 2%nat)) /\
  (forall d1 d2 : float -> float -> float,
     (forall x y, (y =? 0) = false -> d1 x y = d2 x y) ->
     ratio_with d1 following followers = ratio_with d2 following followers).
Proof.
  rewrite ratio_field. unfold ratio_with. split; [ | split ].
  - intros H. rewrite (eqb_ltb_false followers 0 H).
    split; [ reflexivity | split; [ reflexivity | ] ].
    intros Hm. apply toFixed_fraction; [ lia | exact Hm ].
  - intros H. rewrite H.
    split; [ reflexivity | split; [ reflexivity | ] ].
    intros Hm. apply toFixed_fraction; [ lia | exact Hm ].
  - intros d1 d2 Hd. destruct (0 <? followers) eqn:Hpos; [ | reflexivity ].
    apply Hd. destruct (followers =? 0) eqn:Hz; [ | reflexivity ].
    rewrite (eqb_ltb_false followers 0 Hz) in Hpos. discriminate.
Qed.

(** C3 as amended, at 500 following with no follower, and at 47832
    following with 523 followers: the fields are 500.00 and 91.46. *)
Lemma ratio_without_zero_division_witness :
  (ratio (analyzeRatio "t" 500 0) = JS.toFixed 500 2 /\
   JS.fraction_digits (ratio (analyzeRatio "t" 500 0)) = Some 2%nat) /\
  (ratio (analyzeRatio "t" 47832 523) = JS.toFixed (47832 / 523) 2 /\
   JS.fraction_digits (ratio (analyzeRatio "t" 47832 523)) = Some 2%nat).
Proof.
  split.
  - split.
    + exact (proj1 (proj2
               (proj1 (ratio_without_zero_division "t" 500 0) eq_refl))).
    + exact (proj2 (proj2
               (proj1 (ratio_without_zero_division "t" 500 0) eq_refl))
               eq_refl).
  - split.
    + exact (proj1 (proj2
               (proj1 (proj2 (ratio_without_zero_division "t" 47832 523))
                  eq_refl))).
    + exact (proj2 (proj2
               (proj1 (proj2 (ratio_without_zero_division "t" 47832 523))
                  eq_refl)) eq_refl).
Defined.

(** C3 as the specification words it fails: with 10^21 following and no
    follower there is no division and the ratio is the count itself, but
    the field is in exponent notation and not formatted to two
    decimals. *)
Lemma ratio_without_zero_division_counterexample :
  ratio_with PrimFloat.div 1e21 0 = 1e21 /\
  ratio (analyzeRatio "t" 1e21 0) = "1e+21" /\
  ~ (forall (now : string) (following followers : float),
       (followers =? 0) = true ->
       ratio_with PrimFloat.div following followers = following /\
       JS.fraction_digits (ratio (analyzeRatio now following followers))
       = Some 2%nat).
Proof.
  split; [ reflexivity | split ].
  - vm_compute. reflexivity.
  - intros H. destruct (H "t" 1e21 0 eq_refl) as [_ H2].
    vm_compute in H2. discriminate H2.
Qed.

(** ** The message generator *)

(** C6.  Below 1000 the message is the fixed sentence, whatever the draw;
    from 1000 on, a draw whose index [Math.floor(random * 5)] is 0, 1, 2, 3
    or 4 selects the template of that index around the count as the locale
    prints it, and no draw yields a string other than the five. *)
Theorem generateMessage_spec (toLocaleString : float -> string)
  (random following : float) :
  ((following <? 1000) = true ->
     generateMessage toLocaleString random following
     = Some "You seem normal. This tool isn't for you.") /\
  ((1000 <=? following) = true ->
     let count := toLocaleString following in
     let index := JS.array_index (JS.Math_floor (random * 5)) in
     (index = Some 0%N ->
        generateMessage toLocaleString random following
        = Some ("Following " ++ count
                  ++ " accounts? That's not networking, that's hoarding.")) /\
     (index = Some 1%N ->
        generateMessage toLocaleString random following
        = Some (count ++ " follows. Do you even remember who they are?")) /\
     (index = Some 2%N ->
        generateMessage toLocaleString random following
        = Some ("With " ++ count ++ " follows, your feed must be pure noise.")) /\
     (index = Some 3%N ->
        generateMessage toLocaleString random following
        = Some (count ++ ". That's not a following list, that's a phone book.")) /\
     (index = Some 4%N ->
        generateMessage toLocaleString random following
        = Some ("Imagine clicking follow " ++ count
                  ++ " times. The dedication to mediocrity.")) /\
     (forall s : string,
        generateMessage toLocaleString random following = Some s ->
        In s (messages count))).
Proof.
  unfold generateMessage. cbn [SUSPICIOUS THRESHOLDS]. split.
  - intros H. rewrite H. reflexivity.
  - intros H. rewrite (leb_ltb_false 1000 following H). cbv zeta.
    change (JS.array_length (messages (toLocaleString following))) with 5.
    unfold JS.array_get.
    repeat split; try (intros ->; reflexivity).
    intros s.
    destruct (JS.array_index (JS.Math_floor (random * 5))) as [k | ];
      [ | discriminate ].
    destruct (k <? _)%N; [ | discriminate ].
    apply nth_error_In.
Qed.

(** C6 on the example host: 500 following, and 2000 following with the
    draw 0.5, whose index is 2. *)
Lemma generateMessage_spec_witness :
  generateMessage Node.toLocaleString_en_US 0.5 500
  = Some "You seem normal. This tool isn't for you." /\
  generateMessage Node.toLocaleString_en_US 0.5 2000
  = Some "With 2,000 follows, your feed must be pure noise.".
Proof.
  split.
  - exact (proj1 (generateMessage_spec Node.toLocaleString_en_US 0.5 500)
             eq_refl).
  - exact (proj1 (proj2 (proj2
             (proj2 (generateMessage_spec Node.toLocaleString_en_US 0.5 2000)
                eq_refl))) eq_refl).
Defined.

(** ** The command line *)

Section CommandLine.

Variable h : Host.

(** The lines of the report for two numbers. *)
Lemma run_report (following followers : float) (result : RatioAnalysis) :
  Proc.run (report h following followers result) =
  ([ "";
     JS.repeat_string "=" 50;
     "MASS FOLLOW ANALYSIS REPORT";
     JS.repeat_string "=" 50;
     "";
     "Following: " ++ h.(toLocaleString) following;
     "Followers: " ++ h.(toLocaleString) followers;
     "Ratio: " ++ result.(ratio);
     "";
     "Verdict: " ++ result.(verdict);
     result.(description);
     "";
     "Recommendation: " ++ result.(recommendation);
     "";
     JS.repeat_string "=" 50 ], 0%Z).
Proof. reflexivity. Qed.

(** With fewer than two arguments the script prints the usage and exits
    with status 1. *)
Lemma run_main_usage (argv : list string) :
  (List.length (skipn 2 argv) < 2)%nat ->
  Proc.run (main h argv) =
  ([ "Usage: node index.js <following> <followers>";
     "Example: node index.js 47832 523";
     "";
     "Or just accept that if you're running this, you already know." ], 1%Z).
Proof.
  intros H. unfold main.
  destruct (skipn 2 argv) as [ | a [ | b rest]]; cbn in H; try lia;
    reflexivity.
Qed.

(** With two arguments or more the script prints the report of the first
    two, then the shame message if there is shame, and ends. *)
Lemma run_main_report (argv : list string) (a b : string) (rest : list string) :
  skipn 2 argv = a :: b :: rest ->
  Proc.run (main h argv) =
  ((fst (Proc.run (report h (h.(Number) a) (h.(Number) b)
                     (analyzeRatio h.(Date_toISOString) (h.(Number) a)
                        (h.(Number) b))))
    ++ (if shame (analyzeRatio h.(Date_toISOString) (h.(Number) a)
                    (h.(Number) b))
        then [ ""; JS.show (generateMessage h.(toLocaleString)
                               h.(Math_random) (h.(Number) a)) ]
        else []))%list,
   0%Z).
Proof.
  intros H. unfold main. rewrite H.
  cbn [List.length Nat.ltb Nat.leb map nth].
  rewrite run_report. cbn [fst].
  unfold Proc.run, Proc.bind, Proc.ret at 1.
  unfold report, Proc.bind, Proc.console_log. cbn [app].
  destruct (shame _); reflexivity.
Qed.

End CommandLine.



(** ** Shame and the verdict *)

(** C10.  For a following count that is not NaN, [shame] is false exactly
    when the verdict is NORMAL.  For NaN the verdict is
    LEGENDARY_MASS_FOLLOWER and yet [shame] is false, so that the script,
    given a first argument that reads as NaN, prints the report and no
    shame message. *)
Theorem shame_iff_not_normal :
  (forall (now : string) (following followers : float),
     is_nan following = false ->
     (shame (analyzeRatio now following followers) = false <->
      verdict (analyzeRatio now following followers) = "NORMAL")) /\
  (forall (now : string) (following followers : float),
     is_nan following = true ->
     verdict (analyzeRatio now following followers) = "LEGENDARY_MASS_FOLLOWER" /\
     shame (analyzeRatio now following followers) = false) /\
  (forall (h : Host) (argv : list string),
     (2 <= List.length (skipn 2 argv))%nat ->
     is_nan (h.(Number) (nth 2 argv "")) = true ->
     Proc.run (main h argv) =
     Proc.run (report h (h.(Number) (nth 2 argv "")) (h.(Number) (nth 3 argv ""))
                 (analyzeRatio h.(Date_toISOString)
                    (h.(Number) (nth 2 argv ""))
                    (h.(Number) (nth 3 argv ""))))).
Proof.
  split; [ | split ].
  - intros now following followers Hnan.
    rewrite shame_test, verdict_chain.
    rewrite (ltb_negb_leb following 1000 Hnan eq_refl).
    destruct (1000 <=? following); cbn [negb].
    + split; [ discriminate | ].
      destruct (following <? 5000); [ discriminate | ].
      destruct (following <? 10000); [ discriminate | ].
      destruct (following <? 25000); [ discriminate | ].
      destruct (following <? 50000); discriminate.
    + split; reflexivity.
  - intros now following followers Hnan.
    rewrite verdict_chain, shame_test, !(ltb_nan_l following) by exact Hnan.
    split; [ reflexivity | exact (leb_nan_r 1000 following Hnan) ].
  - intros h argv Hlen Hnan.
    destruct argv as [ | node [ | script [ | a [ | b rest]]]];
      cbn in Hlen; try lia.
    cbn [nth] in *.
    rewrite (run_main_report h (node :: script :: a :: b :: rest) a b rest eq_refl).
    rewrite shame_test, (leb_nan_r 1000 _ Hnan), app_nil_r, run_report.
    reflexivity.
Qed.

(** C10 at 999 and 1000 following, at NaN, and on the example host with a
    first argument that is not numeric. *)
Lemma shame_iff_not_normal_witness :
  (shame (analyzeRatio "t" 999 10) = false <->
   verdict (analyzeRatio "t" 999 10) = "NORMAL") /\
  (shame (analyzeRatio "t" 1000 10) = false <->
   verdict (analyzeRatio "t" 1000 10) = "NORMAL") /\
  (verdict (analyzeRatio "t" nan 10) = "LEGENDARY_MASS_FOLLOWER" /\
   shame (analyzeRatio "t" nan 10) = false) /\
  List.length (fst (Proc.run (main Node.host ["node"; "index.js"; "many"; "10"])))
  = 15%nat.
Proof.
  split; [ | split; [ | split ] ].
  - exact (proj1 shame_iff_not_normal "t" 999 10 eq_refl).
  - exact (proj1 shame_iff_not_normal "t" 1000 10 eq_refl).
  - exact (proj1 (proj2 shame_iff_not_normal) "t" nan 10 eq_refl).
  - exact (f_equal (fun r => List.length (fst r))
             (proj2 (proj2 shame_iff_not_normal) Node.host
                ["node"; "index.js"; "many"; "10"] (le_n 2) eq_refl)).
Defined.

(** ** Worked examples *)

(** [toFixed] and [toString] on sample numbers; 0x1.0147ae147ae14p+0 is the
    double written 1.005 and 0x1.999999999999ap-4 the one written 0.1. *)
Example toFixed_samples :
  JS.toFixed (47832 / 523) 2 = "91.46" /\
  JS.toFixed 0x1.0147ae147ae14p+0 2 = "1.00" /\
  JS.toFixed (-2.5) 2 = "-2.50" /\
  JS.toFixed (-0) 2 = "0.00" /\
  JS.toFixed 1e20 2 = "100000000000000000000.00" /\
  JS.toFixed 1e21 2 = "1e+21" /\
  JS.toFixed 0x1p70 2 = "1.1805916207174113e+21" /\
  JS.toFixed infinity 2 = "Infinity" /\
  JS.toFixed nan 2 = "NaN".
Proof. vm_compute. repeat split. Qed.

Example Number_toString_samples :
  JS.Number_toString 0x1.999999999999ap-4 = "0.1" /\
  JS.Number_toString 123456789 = "123456789" /\
  JS.Number_toString 1e21 = "1e+21" /\
  JS.Number_toString 0x1p-1074 = "5e-324" /\
  JS.Number_toString (1 / 3) = "0.3333333333333333".
Proof. vm_compute. repeat split. Qed.

Example Math_floor_samples :
  JS.Math_floor 2.5 = 2 /\ JS.Math_floor (-2.5) = -3 /\
  JS.Math_floor 0.25 = 0 /\ JS.Math_floor 4 = 4 /\
  JS.array_index 4 = Some 4%N /\ JS.array_index 2.5 = None /\
  JS.array_index (-1) = None /\ JS.array_index nan = None.
Proof. vm_compute. repeat split. Qed.

(** The run the usage text proposes, on the example host. *)
Example main_47832_523 :
  Proc.run (main Node.host ["node"; "index.js"; "47832"; "523"]) =
  ([ "";
     "==================================================";
     "MASS FOLLOW ANALYSIS REPORT";
     "==================================================";
     "";
     "Following: 47,832";
     "Followers: 523";
     "Ratio: 91.46";
     "";
     "Verdict: EGREGIOUS_MASS_FOLLOWER";
     "At what cost? FOR WHAT?";
     "";
     "Recommendation: Log off. Forever. Please.";
     "";
     "==================================================";
     "";
     "With 47,832 follows, your feed must be pure noise." ], 0%Z).
Proof. vm_compute. reflexivity. Qed.

(** * Further properties of the program *)

(** ** More on the order of doubles *)

Lemma SFleb_ltb_trans (x y z : spec_float) :
  SFleb x y = true -> SFltb y z = true -> SFltb x z = true.
Proof.
  unfold SFleb, SFltb.
  destruct x as [sx | sx | | sx mx ex], y as [sy | sy | | sy my ey],
    z as [sz | sz | | sz mz ez];
    try destruct sx; try destruct sy; try destruct sz;
    cbn [SFcompare]; try discriminate; try reflexivity.
  all: change (PosDef.Pos.compare_cont Eq) with Pos.compare.
  all: destruct (Z.compare_spec ex ey); try discriminate;
       destruct (Z.compare_spec ey ez); try discriminate;
       destruct (Z.compare_spec ex ez); try lia; try reflexivity.
  all: subst.
  all: destruct (Pos.compare_spec mx my); try discriminate;
       destruct (Pos.compare_spec my mz); try discriminate;
       destruct (Pos.compare_spec mx mz); cbn; try lia; try reflexivity.
Qed.

Lemma leb_ltb_trans (x y z : float) :
  (x <=? y) = true -> (y <? z) = true -> (x <? z) = true.
Proof. rewrite FloatAxioms.leb_spec, !FloatAxioms.ltb_spec. apply SFleb_ltb_trans. Qed.

Lemma ltb_leb (x y : float) : (x <? y) = true -> (x <=? y) = true.
Proof.
  rewrite FloatAxioms.leb_spec, FloatAxioms.ltb_spec. unfold SFleb, SFltb.
  destruct (SFcompare (Prim2SF x) (Prim2SF y)) as [[ | | ] | ]; congruence.
Qed.

Lemma ltb_asym (x y : float) : (x <? y) = true -> (y <? x) = false.
Proof. intros H. apply leb_ltb_false, ltb_leb, H. Qed.

Lemma eqb_leb (x y : float) : (x =? y) = true -> (y <=? x) = true.
Proof.
  rewrite FloatAxioms.eqb_spec, FloatAxioms.leb_spec. unfold SFeqb, SFleb.
  rewrite (SFcompare_antisym (Prim2SF x) (Prim2SF y)).
  destruct (SFcompare (Prim2SF x) (Prim2SF y)) as [[ | | ] | ];
    cbn; congruence.
Qed.

(** A number equal to 0 is one of the two zeros. *)
Lemma eqb_zero (x : float) :
  (x =? 0) = true -> exists s, Prim2SF x = S754_zero s.
Proof.
  rewrite FloatAxioms.eqb_spec.
  destruct (Prim2SF x) as [s | s | | s m e]; try destruct s;
    try discriminate; intros _; eexists; reflexivity.
Qed.

(** A positive number is a positive finite one or plus infinity. *)
Lemma positive_cases (x : float) :
  (0 <? x) = true ->
  Prim2SF x = S754_infinity false \/
  exists m e, Prim2SF x = S754_finite false m e.
Proof.
  rewrite FloatAxioms.ltb_spec.
  destruct (Prim2SF x) as [s | s | | s m e]; try destruct s;
    try discriminate; intros _; [ left | right; do 2 eexists ]; reflexivity.
Qed.

Lemma is_nan_eq (x : float) : is_nan x = true -> x = nan.
Proof.
  rewrite is_nan_true. intros H. apply Prim2SF_inj. rewrite H. reflexivity.
Qed.

(** ** More on the ratio classifier *)

Section AnalyzeRatioTexts.

Variable now : string.
Variables following followers : float.

Lemma description_chain :
  description (analyzeRatio now following followers) =
  if following <? 1000 then "A regular human being. Refreshing."
  else if following <? 5000 then "Either very social or very desperate."
  else if following <? 10000 then "You know what you did."
  else if following <? 25000 then "Quantity over quality, embodied."
  else if following <? 50000 then "At what cost? FOR WHAT?"
  else "You've achieved something. Not something good, but something.".
Proof.
  unfold analyzeRatio. cbn [SUSPICIOUS LIKELY OBVIOUS ABSURD LEGENDARY THRESHOLDS].
  destruct (following <? 1000); [reflexivity | ].
  destruct (following <? 5000); [reflexivity | ].
  destruct (following <? 10000); [reflexivity | ].
  destruct (following <? 25000); [reflexivity | ].
  destruct (following <? 50000); reflexivity.
Qed.

Lemma recommendation_chain :
  recommendation (analyzeRatio now following followers) =
  if following <? 1000 then "None needed. You are doing fine."
  else if following <? 5000 then "Consider touching grass."
  else if following <? 10000 then "The unfollow button exists. Use it."
  else if following <? 25000 then "This is a cry for help, isn't it?"
  else if following <? 50000 then "Log off. Forever. Please."
  else "Frame this. Put it on your wall. Tell your grandchildren.".
Proof.
  unfold analyzeRatio. cbn [SUSPICIOUS LIKELY OBVIOUS ABSURD LEGENDARY THRESHOLDS].
  destruct (following <? 1000); [reflexivity | ].
  destruct (following <? 5000); [reflexivity | ].
  destruct (following <? 10000); [reflexivity | ].
  destruct (following <? 25000); [reflexivity | ].
  destruct (following <? 50000); reflexivity.
Qed.

End AnalyzeRatioTexts.

(** X1.  Whatever the arguments, the verdict is one of the six of the type
    [Verdict], and two results with the same verdict carry the same
    description and the same recommendation. *)
Theorem analyzeRatio_texts_by_verdict
  (now1 now2 : string) (following1 followers1 following2 followers2 : float) :
  verdict_rank (verdict (analyzeRatio now1 following1 followers1)) <> None /\
  (verdict (analyzeRatio now1 following1 followers1)
   = verdict (analyzeRatio now2 following2 followers2) ->
   description (analyzeRatio now1 following1 followers1)
   = description (analyzeRatio now2 following2 followers2) /\
   recommendation (analyzeRatio now1 following1 followers1)
   = recommendation (analyzeRatio now2 following2 followers2)).
Proof.
  rewrite !verdict_chain, !description_chain, !recommendation_chain.
  split.
  - chain_cases following1; discriminate.
  - chain_cases following1; chain_cases following2;
      intros H; try discriminate H; split; reflexivity.
Qed.

(** X1 on two accounts of the same class, 1200 and 4800 following. *)
Lemma analyzeRatio_texts_by_verdict_witness :
  description (analyzeRatio "t" 1200 7) = description (analyzeRatio "u" 4800 90) /\
  recommendation (analyzeRatio "t" 1200 7)
  = recommendation (analyzeRatio "u" 4800 90).
Proof.
  exact (proj2 (analyzeRatio_texts_by_verdict "t" "u" 1200 7 4800 90) eq_refl).
Defined.

(** X2.  The verdict, the description, the recommendation and the shame
    flag depend on [following] alone: neither [followers], and so the
    ratio, nor the time of the call has a part in them. *)
Theorem analyzeRatio_ignores_followers
  (now1 now2 : string) (following followers1 followers2 : float) :
  verdict (analyzeRatio now1 following followers1)
  = verdict (analyzeRatio now2 following followers2) /\
  description (analyzeRatio now1 following followers1)
  = description (analyzeRatio now2 following followers2) /\
  recommendation (analyzeRatio now1 following followers1)
  = recommendation (analyzeRatio now2 following followers2) /\
  shame (analyzeRatio now1 following followers1)
  = shame (analyzeRatio now2 following followers2).
Proof.
  rewrite !verdict_chain, !description_chain, !recommendation_chain,
    !shame_test.
  repeat split.
Qed.

(** X3.  The classification is monotone: of two counts [a <= b], the
    verdict of [b] stands at least as high in the order of the verdicts as
    the one of [a], and [b] is shamed if [a] is. *)
Theorem analyzeRatio_monotone (now1 now2 : string) (a b fa fb : float) :
  (a <=? b) = true ->
  (exists i j : nat,
     verdict_rank (verdict (analyzeRatio now1 a fa)) = Some i /\
     verdict_rank (verdict (analyzeRatio now2 b fb)) = Some j /\
     (i <= j)%nat) /\
  (shame (analyzeRatio now1 a fa) = true ->
   shame (analyzeRatio now2 b fb) = true).
Proof.
  intros Hab. rewrite !verdict_chain, !shame_test. split.
  - pose proof (leb_ltb_trans a b 1000 Hab) as H1.
    pose proof (leb_ltb_trans a b 5000 Hab) as H2.
    pose proof (leb_ltb_trans a b 10000 Hab) as H3.
    pose proof (leb_ltb_trans a b 25000 Hab) as H4.
    pose proof (leb_ltb_trans a b 50000 Hab) as H5.
    destruct (b <? 1000);
      [ rewrite (H1 eq_refl); exists 0%nat, 0%nat; repeat split; lia | clear H1 ].
    destruct (b <? 5000);
      [ rewrite (H2 eq_refl); destruct (a <? 1000);
        do 2 eexists; repeat split; lia | clear H2 ].
    destruct (b <? 10000);
      [ rewrite (H3 eq_refl); chain_cases a;
        do 2 eexists; repeat split; lia | clear H3 ].
    destruct (b <? 25000);
      [ rewrite (H4 eq_refl); chain_cases a;
        do 2 eexists; repeat split; lia | clear H4 ].
    destruct (b <? 50000);
      [ rewrite (H5 eq_refl); chain_cases a;
        do 2 eexists; repeat split; lia | clear H5 ].
    chain_cases a; do 2 eexists; repeat split; lia.
  - intros Ha. exact (leb_trans 1000 a b Ha Hab).
Qed.

(** X3 on the counts 4999 and 5000. *)
Lemma analyzeRatio_monotone_witness :
  exists i j : nat,
    verdict_rank (verdict (analyzeRatio "t" 4999 1)) = Some i /\
    verdict_rank (verdict (analyzeRatio "t" 5000 1)) = Some j /\
    (i <= j)%nat.
Proof.
  exact (proj1 (analyzeRatio_monotone "t" "t" 4999 5000 1 1 eq_refl)).
Defined.

(** ** More on the ratio *)

(** What [toFixed] prints for NaN and for the zeros. *)
Lemma toFixed_nan (x : float) (f : nat) :
  Prim2SF x = S754_nan -> JS.toFixed x f = "NaN".
Proof.
  intros H. unfold JS.toFixed. rewrite H.
  unfold JS.Number_toString. rewrite H. reflexivity.
Qed.

Lemma toFixed_zero (x : float) (s : bool) :
  Prim2SF x = S754_zero s -> JS.toFixed x 2 = "0.00".
Proof. intros H. unfold JS.toFixed. rewrite H. reflexivity. Qed.

(** X4.  A [followers] that is negative or NaN is treated as no follower
    at all: there is no division, and the ratio field is [following]
    formatted by [toFixed(2)]. *)
Theorem ratio_of_invalid_followers (now : string) (following followers : float) :
  (followers <? 0) = true \/ is_nan followers = true ->
  ratio_with PrimFloat.div following followers = following /\
  ratio (analyzeRatio now following followers) = JS.toFixed following 2.
Proof.
  intros H. rewrite ratio_field. unfold ratio_with.
  assert (Hpos : (0 <? followers) = false).
  { destruct H as [H | H].
    - exact (ltb_asym followers 0 H).
    - exact (ltb_nan_r 0 followers H). }
  rewrite Hpos. split; reflexivity.
Qed.

(** X4 at 100 following and -5 followers: the ratio is 100.00, not
    -20.00. *)
Lemma ratio_of_invalid_followers_witness :
  ratio (analyzeRatio "t" 100 (-5)) = JS.toFixed 100 2.
Proof.
  exact (proj2 (ratio_of_invalid_followers "t" 100 (-5) (or_introl eq_refl))).
Defined.

(** X5.  A [following] that is NaN gives the ratio field [NaN], whatever
    [followers] is: the NaN passes through the division and through
    [toFixed]. *)
Theorem ratio_of_nan_following (now : string) (following followers : float) :
  is_nan following = true ->
  ratio (analyzeRatio now following followers) = "NaN".
Proof.
  intros H. rewrite ratio_field. unfold ratio_with.
  apply is_nan_true in H.
  destruct (0 <? followers).
  - apply toFixed_nan. rewrite div_spec, H. reflexivity.
  - apply toFixed_nan. exact H.
Qed.

(** X5 at the NaN that the example host reads from text that is not
    numeric. *)
Lemma ratio_of_nan_following_witness :
  ratio (analyzeRatio "t" (Node.Number_of_text "many") 523) = "NaN".
Proof.
  exact (ratio_of_nan_following "t" (Node.Number_of_text "many") 523 eq_refl).
Defined.

(** X6.  An account that follows nobody has the ratio field [0.00],
    whatever [followers] is: zero divided by a positive number, finite or
    not, is zero, and otherwise the ratio is [following] itself. *)
Theorem ratio_of_zero_following (now : string) (following followers : float) :
  (following =? 0) = true ->
  ratio (analyzeRatio now following followers) = "0.00".
Proof.
  intros H. rewrite ratio_field. unfold ratio_with.
  destruct (eqb_zero following H) as [s Hs].
  destruct (0 <? followers) eqn:Hpos.
  - destruct (positive_cases followers Hpos) as [Hf | [m [e Hf]]].
    + apply (toFixed_zero _ (xorb s false)).
      rewrite div_spec, Hs, Hf. reflexivity.
    + apply (toFixed_zero _ (xorb s false)).
      rewrite div_spec, Hs, Hf. reflexivity.
  - exact (toFixed_zero following s Hs).
Qed.

(** X6 at no following and 523 followers, and at no following and no
    follower. *)
Lemma ratio_of_zero_following_witness :
  ratio (analyzeRatio "t" 0 523) = "0.00" /\
  ratio (analyzeRatio "t" 0 0) = "0.00".
Proof.
  split.
  - exact (ratio_of_zero_following "t" 0 523 eq_refl).
  - exact (ratio_of_zero_following "t" 0 0 eq_refl).
Defined.

(** ** More on the follow-back classifier *)

(** X7.  [analyzeFollowBack] gives a verdict other than SEEMS_GENUINE only
    for an account that follows you and follows more than 1000 accounts,
    and that you followed back or that follows you no more.  So an account
    that does not follow you, or whose count is NaN, is never accused. *)
Theorem analyzeFollowBack_accuses_only (theyFollowYou : bool)
  (theirFollowing : float) (youFollowedBack theyStillFollowYou : bool) :
  fb_verdict (analyzeFollowBack theyFollowYou theirFollowing youFollowedBack
                theyStillFollowYou) <> "SEEMS_GENUINE" ->
  theyFollowYou = true /\
  (1000 <? theirFollowing) = true /\
  is_nan theirFollowing = false /\
  (youFollowedBack = true \/ theyStillFollowYou = false).
Proof.
  unfold analyzeFollowBack. cbn [SUSPICIOUS THRESHOLDS].
  destruct (is_nan theirFollowing) eqn:Hnan.
  - rewrite (ltb_nan_r 1000 theirFollowing Hnan). intros H. now contradict H.
  - destruct (1000 <? theirFollowing), theyFollowYou, youFollowedBack,
      theyStillFollowYou; cbn; intros H; try (now contradict H); auto.
Qed.

(** X7 on a mass follower who followed and left. *)
Lemma analyzeFollowBack_accuses_only_witness :
  true = true /\ (1000 <? 2000) = true /\ is_nan 2000 = false /\
  (false = true \/ false = false).
Proof.
  apply (analyzeFollowBack_accuses_only true 2000 false false).
  discriminate.
Defined.

(** X8.  Once you have followed back, whether they still follow you makes
    no difference to the result; and if you have not, an account that
    still follows you is never accused. *)
Theorem analyzeFollowBack_still_following (theyFollowYou : bool)
  (theirFollowing : float) (still1 still2 : bool) :
  analyzeFollowBack theyFollowYou theirFollowing true still1
  = analyzeFollowBack theyFollowYou theirFollowing true still2 /\
  fb_verdict (analyzeFollowBack theyFollowYou theirFollowing false true)
  = "SEEMS_GENUINE".
Proof.
  unfold analyzeFollowBack.
  destruct (THRESHOLDS.(SUSPICIOUS) <? theirFollowing), theyFollowYou,
    still1, still2; split; reflexivity.
Qed.

(** X9.  The two classifiers agree in one direction: an account that
    [analyzeFollowBack] accuses is shamed by [analyzeRatio], with a verdict
    other than NORMAL.  Not the other way round: an account that follows
    exactly 1000 is shamed, and never accused. *)
Theorem analyzeFollowBack_implies_shame (now : string)
  (theyFollowYou : bool) (theirFollowing followers : float)
  (youFollowedBack theyStillFollowYou : bool) :
  (fb_verdict (analyzeFollowBack theyFollowYou theirFollowing youFollowedBack
                 theyStillFollowYou) <> "SEEMS_GENUINE" ->
   shame (analyzeRatio now theirFollowing followers) = true /\
   verdict (analyzeRatio now theirFollowing followers) <> "NORMAL") /\
  ((theirFollowing =? 1000) = true ->
   shame (analyzeRatio now theirFollowing followers) = true /\
   fb_verdict (analyzeFollowBack theyFollowYou theirFollowing youFollowedBack
                 theyStillFollowYou) = "SEEMS_GENUINE").
Proof.
  rewrite shame_test, verdict_chain.
  unfold analyzeFollowBack. cbn [SUSPICIOUS THRESHOLDS]. split.
  - destruct (1000 <? theirFollowing) eqn:Hgt;
      [ | intros H; now contradict H ].
    intros _. pose proof (ltb_leb 1000 theirFollowing Hgt) as Hge.
    rewrite (leb_ltb_false 1000 theirFollowing Hge).
    split; [ exact Hge | ].
    destruct (theirFollowing <? 5000); [ discriminate | ].
    destruct (theirFollowing <? 10000); [ discriminate | ].
    destruct (theirFollowing <? 25000); [ discriminate | ].
    destruct (theirFollowing <? 50000); discriminate.
  - intros H.
    rewrite (eqb_ltb_false theirFollowing 1000 H).
    split; [ exact (eqb_leb theirFollowing 1000 H) | reflexivity ].
Qed.

(** X9 on a mass follower you followed back, and at exactly 1000. *)
Lemma analyzeFollowBack_implies_shame_witness :
  (shame (analyzeRatio "t" 2000 10) = true /\
   verdict (analyzeRatio "t" 2000 10) <> "NORMAL") /\
  (shame (analyzeRatio "t" 1000 10) = true /\
   fb_verdict (analyzeFollowBack true 1000 true true) = "SEEMS_GENUINE").
Proof.
  split.
  - apply (proj1 (analyzeFollowBack_implies_shame "t" true 2000 10 true true)).
    discriminate.
  - exact (proj2 (analyzeFollowBack_implies_shame "t" true 1000 10 true true)
             eq_refl).
Defined.

(** ** More on the message generator *)

(** From 1000 on, and for NaN, a message is one of the five templates. *)
Lemma generateMessage_templates (toLocaleString : float -> string)
  (random following : float) (s : string) :
  (following <? 1000) = false ->
  generateMessage toLocaleString random following = Some s ->
  In s (messages (toLocaleString following)).
Proof.
  unfold generateMessage, JS.array_get. cbn [SUSPICIOUS THRESHOLDS].
  intros ->.
  destruct (JS.array_index _) as [k | ]; [ | discriminate ].
  destruct (k <? _)%N; [ | discriminate ].
  apply nth_error_In.
Qed.

(** Every template has the count in it. *)
Lemma messages_mention_count (count s : string) :
  In s (messages count) -> exists pre post : string, s = pre ++ count ++ post.
Proof.
  intros [H | [H | [H | [H | [H | []]]]]]; subst s.
  - exists "Following ", " accounts? That's not networking, that's hoarding.".
    reflexivity.
  - exists "", " follows. Do you even remember who they are?". reflexivity.
  - exists "With ", " follows, your feed must be pure noise.". reflexivity.
  - exists "", ". That's not a following list, that's a phone book.".
    reflexivity.
  - exists "Imagine clicking follow ", " times. The dedication to mediocrity.".
    reflexivity.
Qed.

(** No template is the sentence for normal accounts, whatever the count
    prints as. *)
Lemma messages_not_normal (count s : string) :
  In s (messages count) -> s <> "You seem normal. This tool isn't for you.".
Proof.
  intros [H | [H | [H | [H | [H | []]]]]]; subst s; intros E;
    try discriminate E;
    apply (f_equal String.length) in E; rewrite length_app in E;
    cbn in E; lia.
Qed.

(** X10.  For a count that is not below 1000 (NaN included), any message
    [generateMessage] returns contains the count as the locale prints
    it. *)
Theorem generateMessage_mentions_count (toLocaleString : float -> string)
  (random following : float) (s : string) :
  (following <? 1000) = false ->
  generateMessage toLocaleString random following = Some s ->
  exists pre post : string, s = pre ++ toLocaleString following ++ post.
Proof.
  intros Hf Hs. apply messages_mention_count.
  exact (generateMessage_templates toLocaleString random following s Hf Hs).
Qed.

(** X10 on the example host, at 2000 following with the draw 0.5. *)
Lemma generateMessage_mentions_count_witness :
  exists pre post : string,
    "With 2,000 follows, your feed must be pure noise."
    = pre ++ Node.toLocaleString_en_US 2000 ++ post.
Proof.
  exact (generateMessage_mentions_count Node.toLocaleString_en_US 0.5 2000
           "With 2,000 follows, your feed must be pure noise."
           eq_refl eq_refl).
Defined.

(** X11.  [generateMessage] returns the sentence for normal accounts
    exactly when the count is below 1000, whatever the draw and whatever
    the locale prints: a NaN count, in particular, does not get it. *)
Theorem generateMessage_normal_iff (toLocaleString : float -> string)
  (random following : float) :
  generateMessage toLocaleString random following
  = Some "You seem normal. This tool isn't for you."
  <-> (following <? 1000) = true.
Proof.
  split.
  - intros H. destruct (following <? 1000) eqn:Hf; [ reflexivity | ].
    exfalso.
    exact (messages_not_normal _ _
             (generateMessage_templates toLocaleString random following _ Hf H)
             eq_refl).
  - intros H. unfold generateMessage. cbn [SUSPICIOUS THRESHOLDS].
    rewrite H. reflexivity.
Qed.

(** ** More on the command line *)

Section CommandLineMore.

Variable h : Host.

(** X12.  Only the third and the fourth entry of [process.argv] are read:
    the interpreter, the script and any argument after the second change
    nothing of what is printed nor of the exit status. *)
Theorem main_reads_two_arguments (node1 script1 node2 script2 a b : string)
  (rest1 rest2 : list string) :
  Proc.run (main h (node1 :: script1 :: a :: b :: rest1))
  = Proc.run (main h (node2 :: script2 :: a :: b :: rest2)).
Proof.
  rewrite (run_main_report h (node1 :: script1 :: a :: b :: rest1) a b rest1
             eq_refl).
  rewrite (run_main_report h (node2 :: script2 :: a :: b :: rest2) a b rest2
             eq_refl).
  reflexivity.
Qed.

(** X13.  The script prints 4 lines when it has fewer than two arguments;
    otherwise the 15 lines of the report, and two more, a blank line and
    the message, exactly when the first argument reads as a number of at
    least 1000. *)
Theorem main_line_count (argv : list string) :
  List.length (fst (Proc.run (main h argv))) =
  if (List.length (skipn 2 argv) <? 2)%nat then 4%nat
  else if 1000 <=? h.(Number) (nth 2 argv "") then 17%nat
  else 15%nat.
Proof.
  destruct (Nat.ltb_spec (List.length (skipn 2 argv)) 2) as [Hlt | Hge].
  - rewrite (run_main_usage h argv Hlt). reflexivity.
  - destruct argv as [ | node [ | script [ | a [ | b rest]]]];
      cbn in Hge; try lia.
    rewrite (run_main_report h (node :: script :: a :: b :: rest) a b rest
               eq_refl).
    cbn [fst nth]. rewrite run_report, shame_test. cbn [fst].
    destruct (1000 <=? Number h a); reflexivity.
Qed.

(** X14.  The script never prints the sentence for normal accounts: it
    asks for a message only when there is shame, and from 1000 on
    [generateMessage] takes a template. *)
Theorem main_never_prints_normal (argv : list string) :
  ~ In "You seem normal. This tool isn't for you."
      (fst (Proc.run (main h argv))).
Proof.
  destruct (Nat.ltb_spec (List.length (skipn 2 argv)) 2) as [Hlt | Hge].
  - rewrite (run_main_usage h argv Hlt). cbn [fst In].
    intros [H | [H | [H | [H | []]]]]; discriminate H.
  - destruct argv as [ | node [ | script [ | a [ | b rest]]]];
      cbn in Hge; try lia.
    rewrite (run_main_report h (node :: script :: a :: b :: rest) a b rest
               eq_refl).
    cbn [fst]. rewrite run_report, shame_test, description_chain. cbn [fst].
    intros H. apply in_app_or in H. destruct H as [H | H].
    + cbn [In] in H.
      repeat (destruct H as [H | H]; [ try discriminate H | ]);
        try contradiction.
      revert H. chain_cases (Number h a); discriminate.
    + destruct (1000 <=? Number h a) eqn:Hge1000; [ | contradiction ].
      cbn [In] in H. destruct H as [H | [H | []]]; [ discriminate H | ].
      pose proof (leb_ltb_false 1000 (Number h a) Hge1000) as Hlt.
      destruct (generateMessage (toLocaleString h) (Math_random h)
                  (Number h a)) as [s | ] eqn:Hs; cbn [JS.show] in H.
      * subst s.
        exact (messages_not_normal _ _
                 (generateMessage_templates _ _ _ _ Hlt Hs) eq_refl).
      * discriminate H.
Qed.

End CommandLineMore.

(** X12 on the example host: a third argument changes nothing. *)
Example main_reads_two_arguments_example :
  Proc.run (main Node.host ["node"; "index.js"; "47832"; "523"; "more"])
  = Proc.run (main Node.host ["node"; "index.js"; "47832"; "523"]).
Proof. vm_compute. reflexivity. Qed.
